(** * Calculus.js: sampling, plot-data assembly, cache and controller

    A shallow embedding of [Calculus.js].  JavaScript numbers are IEEE 754
    binary64 values, modelled by Rocq's primitive [float]; JavaScript strings
    are modelled by [string] (byte strings, so only ASCII white space is
    known to [trim]).  Code that may throw returns a [Completion].  The
    expression library (math.js), the plotting library (Plotly) and the
    number-to-text conversions of the JavaScript runtime are not part of
    the repository: the program is embedded over an interface to them, and
    a small concrete instance is given further down to run the program on
    concrete inputs. *)

From Stdlib Require Import Floats ZArith List String Ascii Bool Lia DecimalString.
From stdpp Require Import base option list gmap strings.
Import ListNotations.

Set Warnings "-inexact-float".

Local Open Scope list_scope.
Local Open Scope string_scope.

(** ** JavaScript values and abrupt completion *)

Abbreviation number := float.

Inductive Completion (A : Type) : Type :=
| Normal (a : A)
| Throw (message : string).
Arguments Normal {A} a.
Arguments Throw {A} message.

#[global] Instance Completion_ret : MRet Completion := fun A a => Normal a.
#[global] Instance Completion_bind : MBind Completion :=
  fun A B k c => match c with Normal a => k a | Throw m => Throw m end.

(** [try { c } catch (error) { h error.message }] *)
Definition try_catch {A} (c : Completion A) (h : string -> Completion A)
  : Completion A :=
  match c with Normal a => Normal a | Throw m => h m end.

(** A change made to the value of a normal completion. *)
Definition on_normal {A B} (g : A -> B) (c : Completion A) : Completion B :=
  match c with Normal a => Normal (g a) | Throw m => Throw m end.

(** [l.map(f)] for a callback that may throw: elements are visited from
    left to right and the first exception ends the traversal. *)
Fixpoint map_throwing {A B} (f : A -> Completion B) (l : list A)
  : Completion (list B) :=
  match l with
  | [] => Normal []
  | a :: l' => b ← f a; bs ← map_throwing f l'; mret (b :: bs)
  end.

(** [math.range(start, end, step).toArray()] for a positive step: the end
    is excluded and each element is the previous one plus [step]. *)
Fixpoint range_from (fuel : nat) (x stop step : number) : list number :=
  match fuel with
  | O => []
  | S k => if (x <? stop)%float then x :: range_from k (x + step)%float stop step
           else []
  end.

Definition math_range (start stop step : number) : list number :=
  range_from 4096 start stop step.

(** The two grids the program asks for. *)
Definition grid3d : list number := math_range (-5)%float 5%float 0.25%float.
Definition grid2d : list number := math_range (-5)%float 5%float 0.5%float.

(** ** The expression library (math.js) as the program uses it *)

Record MathJs : Type := {
  Node : Type;
  (** [math.parse(expr)] *)
  math_parse : string -> Completion Node;
  (** [math.derivative(f, variable)] *)
  math_derivative : Node -> string -> Completion Node;
  (** [f.compile().evaluate({ x, y })]; the result is taken to be a number *)
  evaluate : Node -> number -> number -> Completion number;
}.

(** ** Plot series *)

Module Surface.
Record t : Type := mk {
    x : list number; y : list number; z : list (list number);
    type : string; name : string; colorscale : string; visible : bool }.
Definition with_visible (v : bool) (s : t) : t :=
    mk (x s) (y s) (z s) (type s) (name s) (colorscale s) v.
End Surface.

Module TangentPlane.
Record t : Type := mk {
    x : list number; y : list number; z : list (list number);
    type : string; name : string; opacity : number; colorscale : string;
    showscale : bool; visible : bool }.
Definition with_visible (v : bool) (s : t) : t :=
    mk (x s) (y s) (z s) (type s) (name s) (opacity s) (colorscale s)
       (showscale s) v.
End TangentPlane.

Module Marker.
Record t : Type := mk { size : number; color : string }.
End Marker.

Module Line.
Record t : Type := mk { width : number; color : string }.
End Line.

Module Point.
Record t : Type := mk {
    x : list number; y : list number; z : list number;
    mode : string; type : string; marker : Marker.t; name : string;
    visible : bool }.
End Point.

Module Gradient.
Record t : Type := mk {
    x : list number; y : list number; z : list number;
    mode : string; type : string; line : Line.t; name : string;
    visible : bool }.
Definition with_visible (v : bool) (s : t) : t :=
    mk (x s) (y s) (z s) (mode s) (type s) (line s) (name s) v.
End Gradient.

Module Derivatives.
Record t (N : Type) : Type := mk {
    fx0 : number; fy0 : number; f0 : number; fx : N; fy : N }.
Arguments mk {N}.
Arguments fx0 {N}.
Arguments fy0 {N}.
Arguments f0 {N}.
Arguments fx {N}.
Arguments fy {N}.
End Derivatives.

Module Plot3d.
Record t (N : Type) : Type := mk {
    surface : Surface.t; tangentPlane : TangentPlane.t; point : Point.t;
    gradient : Gradient.t; derivatives : Derivatives.t N }.
Arguments mk {N}.
Arguments surface {N}.
Arguments tangentPlane {N}.
Arguments point {N}.
Arguments gradient {N}.
Arguments derivatives {N}.
Definition with_surface {N} (s : Surface.t) (p : t N) : t N :=
  mk s (tangentPlane p) (point p) (gradient p) (derivatives p).
Definition with_tangentPlane {N} (s : TangentPlane.t) (p : t N) : t N :=
  mk (surface p) s (point p) (gradient p) (derivatives p).
Definition with_gradient {N} (s : Gradient.t) (p : t N) : t N :=
  mk (surface p) (tangentPlane p) (point p) s (derivatives p).
End Plot3d.

Module Contour.
Record t : Type := mk {
    x : list number; y : list number; z : list (list number);
    type : string; coloring : string; showscale : bool; visible : bool }.
Definition with_visible (v : bool) (s : t) : t :=
    mk (x s) (y s) (z s) (type s) (coloring s) (showscale s) v.
End Contour.

Module Vector.
Record t : Type := mk {
    x : list number; y : list number; mode : string; type : string;
    line : Line.t; showlegend : bool; visible : bool }.
Definition with_visible (v : bool) (s : t) : t :=
    mk (x s) (y s) (mode s) (type s) (line s) (showlegend s) v.
End Vector.

Module Plot2d.
Record t : Type := mk { contour : Contour.t; vectors : list Vector.t }.
Definition with_contour (s : Contour.t) (p : t) : t := mk s (vectors p).
Definition with_vectors (l : list Vector.t) (p : t) : t := mk (contour p) l.
End Plot2d.

(** ** Global state *)

Module PlotVisibility.
Record t : Type := mk {
    surface : bool; tangentPlane : bool; gradient : bool; contour : bool;
    vectors : bool }.
End PlotVisibility.

Module CachedPlot.
Record t (N : Type) : Type := mk {
    plot3dData : Plot3d.t N; plot2dData : Plot2d.t }.
Arguments mk {N}.
Arguments plot3dData {N}.
Arguments plot2dData {N}.
End CachedPlot.

Module AppState.
Record t (N : Type) : Type := mk {
    currentFunction : string;
    x0 : number;
    y0 : number;
    isDarkMode : bool;
    plotVisibility : PlotVisibility.t;
    cachedPlots : gmap string (CachedPlot.t N);
    isLoading : bool }.
Arguments mk {N}.
Arguments currentFunction {N}.
Arguments x0 {N}.
Arguments y0 {N}.
Arguments isDarkMode {N}.
Arguments plotVisibility {N}.
Arguments cachedPlots {N}.
Arguments isLoading {N}.
Definition with_isLoading {N} (b : bool) (s : t N) : t N :=
  mk (currentFunction s) (x0 s) (y0 s) (isDarkMode s) (plotVisibility s)
     (cachedPlots s) b.
Definition with_request {N} (expr : string) (x y : number) (s : t N) : t N :=
  mk expr x y (isDarkMode s) (plotVisibility s) (cachedPlots s) (isLoading s).
Definition with_cachedPlots {N} (c : gmap string (CachedPlot.t N)) (s : t N)
  : t N :=
  mk (currentFunction s) (x0 s) (y0 s) (isDarkMode s) (plotVisibility s) c
     (isLoading s).
Definition with_plotVisibility {N} (v : PlotVisibility.t) (s : t N) : t N :=
  mk (currentFunction s) (x0 s) (y0 s) (isDarkMode s) v (cachedPlots s)
     (isLoading s).
End AppState.

(** The result object of [Utils.validateExpression]. *)
Inductive Validation (N : Type) : Type :=
| Valid (parsed : N)
| Invalid (error : string).
Arguments Valid {N} parsed.
Arguments Invalid {N} error.

(** ** The host: Plotly, the page and the runtime's number formatting *)

(** What [Plotly.newPlot] is given: the traces that passed the visibility
    filter, and the theme-dependent colours of the layout (its constant
    fields are left out). *)
Inductive Trace : Type :=
| SurfaceTrace (s : Surface.t)
| TangentPlaneTrace (s : TangentPlane.t)
| PointTrace (s : Point.t)
| GradientTrace (s : Gradient.t)
| ContourTrace (s : Contour.t)
| VectorTrace (s : Vector.t).

Definition trace_visible (t : Trace) : bool :=
  match t with
  | SurfaceTrace s => Surface.visible s
  | TangentPlaneTrace s => TangentPlane.visible s
  | PointTrace s => Point.visible s
  | GradientTrace s => Gradient.visible s
  | ContourTrace s => Contour.visible s
  | VectorTrace s => Vector.visible s
  end.

Inductive Layout : Type :=
| Layout3d (axis_color bgcolor font_color : string)
| Layout2d (axis_color gridcolor font_color title_text : string).

Record Host : Type := {
  (** the text of a number inside a template literal *)
  Number_toString : number -> string;
  (** [num.toFixed(decimals)] *)
  Number_toFixed : number -> nat -> string;
  (** how the promise of [Plotly.newPlot(container, traces, layout)] settles *)
  Plotly_newPlot : string -> list Trace -> Layout -> Completion unit;
}.

(** The three controls [plotFunction] reads; [x0] and [y0] are the sliders'
    values after [parseFloat]. *)
Module Dom.
Record t : Type := mk { func : string; x0 : number; y0 : number }.
End Dom.

(** What the program does to the page and the console, in order. *)
Inductive Event (N : Type) : Type :=
| ShowLoading
| HideLoading
| ShowError (message : string)
| ConsoleError (message : string)
| Generate3D (expr : string) (x0 y0 : number)
| Generate2D (expr : string) (x0 y0 : number)
| NewPlot (container : string) (traces : list Trace) (layout : Layout)
| UpdateAnalysis (d : Derivatives.t N) (x0 y0 : number).
Arguments ShowLoading {N}.
Arguments HideLoading {N}.
Arguments ShowError {N} message.
Arguments ConsoleError {N} message.
Arguments Generate3D {N} expr x0 y0.
Arguments Generate2D {N} expr x0 y0.
Arguments NewPlot {N} container traces layout.
Arguments UpdateAnalysis {N} d x0 y0.

Module World.
Record t (N : Type) : Type := mk {
    app : AppState.t N; dom : Dom.t; log : list (Event N) }.
Arguments mk {N}.
Arguments app {N}.
Arguments dom {N}.
Arguments log {N}.
End World.

(** Statements of the program: they read and write the world and complete
    normally or by throwing; what was done before a throw stays done. *)
Definition Action (N A : Type) : Type := World.t N -> Completion A * World.t N.

Definition ret {N A} (a : A) : Action N A := fun w => (Normal a, w).

Definition bind {N A B} (c : Action N A) (k : A -> Action N B) : Action N B :=
  fun w => match c w with
           | (Normal a, w') => k a w'
           | (Throw m, w') => (Throw m, w')
           end.

Definition throw {N A} (m : string) : Action N A := fun w => (Throw m, w).

Definition lift {N A} (c : Completion A) : Action N A := fun w => (c, w).

Definition emit {N} (e : Event N) : Action N unit :=
  fun w => (Normal tt, World.mk (World.app w) (World.dom w) (World.log w ++ [e])).

Definition getApp {N} : Action N (AppState.t N) := fun w => (Normal (World.app w), w).

Definition getDom {N} : Action N Dom.t := fun w => (Normal (World.dom w), w).

Definition setApp {N} (s : AppState.t N) : Action N unit :=
  fun w => (Normal tt, World.mk s (World.dom w) (World.log w)).

(** [try { body } catch (error) { handler error.message } finally { final }] *)
Definition try_catch_finally {N} (body : Action N unit)
    (handler : string -> Action N unit) (final : Action N unit) : Action N unit :=
  fun w =>
    let r := match body w with
             | (Normal a, w') => (Normal a, w')
             | (Throw m, w') => handler m w'
             end in
    match final (snd r) with
    | (Normal _, w'') => (fst r, w'')
    | (Throw m, w'') => (Throw m, w'')
    end.

Declare Scope action_scope.
Delimit Scope action_scope with action.
Notation "'do' x <- c ; k" := (bind c (fun x => k))
  (at level 10, x name, c at level 100, k at level 200) : action_scope.
Notation "c ;; k" := (bind c (fun _ => k))
  (at level 100, k at level 200, right associativity) : action_scope.

(** Classification of numbers: [finite v] is what [Number.isFinite(v)]
    answers, and a number is NaN exactly when it differs from itself. *)
Definition finite (v : number) : bool :=
  match Prim2SF v with
  | S754_zero _ | S754_finite _ _ _ => true
  | S754_infinity _ | S754_nan => false
  end.

(** The two orders in which cells are visited: [(i', j')] comes before
    [(i, j)] in a row-by-row traversal. *)
Definition cell_before (i' j' i j : nat) : Prop :=
  (i' < i)%nat \/ (i' = i /\ (j' < j)%nat).

(** The same classification on the specification side of [float], and
    equality up to the sign of a zero (what [===] sees of a number that is
    not NaN). *)
Definition SF_finite (v : spec_float) : bool :=
  match v with
  | S754_zero _ | S754_finite _ _ _ => true
  | S754_infinity _ | S754_nan => false
  end.

Definition SF_zero (v : spec_float) : bool :=
  match v with S754_zero _ => true | _ => false end.

Definition SF_same (a b : spec_float) : Prop :=
  a = b \/ (SF_zero a = true /\ SF_zero b = true).

(** The calls of the two generators recorded in a log. *)
Definition is_generate {N} (e : Event N) : bool :=
  match e with
  | Generate3D _ _ _ | Generate2D _ _ _ => true
  | _ => false
  end.

Definition sampler_calls {N} (log : list (Event N)) : nat :=
  length (List.filter is_generate log).

(** ** The program *)

(** [s.trim()] on byte strings: TAB, LF, VT, FF, CR and SPACE are removed
    from both ends. *)
Definition is_white_space (c : ascii) : bool :=
  let n := nat_of_ascii c in
  ((9 <=? n)%nat && (n <=? 13)%nat) || (n =? 32)%nat.

Fixpoint trim_start (s : string) : string :=
  match s with
  | EmptyString => EmptyString
  | String c s' => if is_white_space c then trim_start s' else s
  end.

Definition trim (s : string) : string :=
  String.rev (trim_start (String.rev (trim_start s))).

Definition bool_text (b : bool) : string := if b then "true" else "false".

Section Program.

Context (M : MathJs) (H : Host).

Local Abbreviation N := (Node M).

(** *** Utils *)

Definition showLoading : Action N unit :=
  (do st <- getApp;
   setApp (AppState.with_isLoading true st);;
   emit ShowLoading)%action.

Definition hideLoading : Action N unit :=
  (do st <- getApp;
   setApp (AppState.with_isLoading false st);;
   emit HideLoading)%action.

Definition showError (message : string) : Action N unit :=
  emit (ShowError message).

Definition validateExpression (expr : string) : Validation N :=
  match (parsed ← math_parse M expr;
         _ ← evaluate M parsed 1%float 1%float;
         mret parsed) with
  | Normal parsed => Valid parsed
  | Throw m => Invalid m
  end.

Definition formatNumber (num : number) (decimals : nat) : string :=
  if (abs num <? 0.001)%float then "0" else Number_toFixed H num decimals.

(** *** PlotManager *)

Definition generate3DPlotData (st : AppState.t N) (expr : string)
    (x0 y0 : number) : Completion (Plot3d.t N) :=
  try_catch
    (f ← math_parse M expr;
     fx ← math_derivative M f "x";
     fy ← math_derivative M f "y";
     let range := math_range (-5)%float 5%float 0.25%float in
     let xVals := range in
     let yVals := range in
     zVals ← map_throwing
               (fun x => map_throwing (fun y => evaluate M f x y) yVals) xVals;
     fx0 ← evaluate M fx x0 y0;
     fy0 ← evaluate M fy x0 y0;
     f0 ← evaluate M f x0 y0;
     let tangentZ :=
       map (fun x =>
              map (fun y => (f0 + fx0 * (x - x0) + fy0 * (y - y0))%float) yVals)
           xVals in
     mret (Plot3d.mk
       (Surface.mk xVals yVals zVals "surface" "f(x,y)"
          (if AppState.isDarkMode st then "Viridis" else "Blues")
          (PlotVisibility.surface (AppState.plotVisibility st)))
       (TangentPlane.mk xVals yVals tangentZ "surface" "Tangent Plane"
          0.6%float
          (if AppState.isDarkMode st then "YlOrRd" else "Reds")
          false
          (PlotVisibility.tangentPlane (AppState.plotVisibility st)))
       (Point.mk [x0] [y0] [f0] "markers" "scatter3d"
          (Marker.mk 8%float "#ef4444")
          ("(" ++ formatNumber x0 2 ++ ", " ++ formatNumber y0 2 ++ ")")
          true)
       (Gradient.mk [x0; (x0 + fx0 / 2)%float] [y0; (y0 + fy0 / 2)%float]
          [f0; (f0 + (fx0 + fy0) / 2)%float] "lines" "scatter3d"
          (Line.mk 6%float "#ef4444") "Gradient"
          (PlotVisibility.gradient (AppState.plotVisibility st)))
       (Derivatives.mk fx0 fy0 f0 fx fy)))
    (fun message => Throw ("Error generating 3D plot: " ++ message)).

Definition generate2DPlotData (st : AppState.t N) (expr : string)
    (x0 y0 : number) : Completion Plot2d.t :=
  try_catch
    (f ← math_parse M expr;
     fx ← math_derivative M f "x";
     fy ← math_derivative M f "y";
     let gridStep := 0.5%float in
     let xs := math_range (-5)%float 5%float gridStep in
     let ys := math_range (-5)%float 5%float gridStep in
     contourZ ← map_throwing
                  (fun x => map_throwing (fun y => evaluate M f x y) ys) xs;
     rows ← map_throwing
              (fun x =>
                 map_throwing
                   (fun y =>
                      gx ← evaluate M fx x y;
                      gy ← evaluate M fy x y;
                      mret (Vector.mk [x; (x + 0.2 * gx)%float]
                              [y; (y + 0.2 * gy)%float] "lines" "scatter"
                              (Line.mk 1%float "#1e293b") false
                              (PlotVisibility.vectors
                                 (AppState.plotVisibility st))))
                   ys)
              xs;
     let vectors := concat rows in
     mret (Plot2d.mk
       (Contour.mk xs ys contourZ "contour" "heatmap" false
          (PlotVisibility.contour (AppState.plotVisibility st)))
       vectors))
    (fun message => Throw ("Error generating 2D plot: " ++ message)).

Definition render3DPlot (plotData : Plot3d.t N) : Action N unit :=
  (do st <- getApp;
   let traces :=
     List.filter trace_visible
       [SurfaceTrace (Plot3d.surface plotData);
        TangentPlaneTrace (Plot3d.tangentPlane plotData);
        PointTrace (Plot3d.point plotData);
        GradientTrace (Plot3d.gradient plotData)] in
   let layout :=
     Layout3d (if AppState.isDarkMode st then "#f8fafc" else "#1e293b")
              (if AppState.isDarkMode st then "#0f172a" else "#ffffff")
              (if AppState.isDarkMode st then "#f8fafc" else "#1e293b") in
   emit (NewPlot "plot3d" traces layout);;
   lift (Plotly_newPlot H "plot3d" traces layout))%action.

Definition render2DPlot (plotData : Plot2d.t) : Action N unit :=
  (do st <- getApp;
   let traces :=
     List.filter trace_visible
       (ContourTrace (Plot2d.contour plotData)
        :: map VectorTrace (Plot2d.vectors plotData)) in
   let layout :=
     Layout2d (if AppState.isDarkMode st then "#f8fafc" else "#1e293b")
              (if AppState.isDarkMode st then "#334155" else "#e2e8f0")
              (if AppState.isDarkMode st then "#f8fafc" else "#1e293b")
              "2D Contour & Gradient Field" in
   emit (NewPlot "plot2d" traces layout);;
   lift (Plotly_newPlot H "plot2d" traces layout))%action.

(** [await Promise.all([a, b])]: both are started, in order; the first
    rejection, if any, is what is thrown. *)
Definition promise_all2 (a b : Action N unit) : Action N unit :=
  fun w =>
    let ra := a w in
    let rb := b (snd ra) in
    (match fst ra with Throw m => Throw m | Normal _ => fst rb end, snd rb).

(** *** Main plotting function *)

Definition updateAnalysisSection (d : Derivatives.t N) (x0 y0 : number)
  : Action N unit :=
  emit (UpdateAnalysis d x0 y0).

Definition cacheKey (expr : string) (x0 y0 : number) (isDarkMode : bool)
  : string :=
  expr ++ "_" ++ Number_toString H x0 ++ "_" ++ Number_toString H y0 ++ "_"
       ++ bool_text isDarkMode.

Definition plotFunction_body : Action N unit :=
  (showLoading;;
   do d <- getDom;
   let expr := trim (Dom.func d) in
   let x0 := Dom.x0 d in
   let y0 := Dom.y0 d in
   (if String.eqb expr "" then throw "Please enter a function" else ret tt);;
   (match validateExpression expr with
    | Valid _ => ret tt
    | Invalid error => throw ("Invalid function: " ++ error)
    end);;
   do st <- getApp;
   setApp (AppState.with_request expr x0 y0 st);;
   emit (Generate3D expr x0 y0);;
   do st1 <- getApp;
   do plot3dData <- lift (generate3DPlotData st1 expr x0 y0);
   emit (Generate2D expr x0 y0);;
   do plot2dData <- lift (generate2DPlotData st1 expr x0 y0);
   promise_all2 (render3DPlot plot3dData) (render2DPlot plot2dData);;
   updateAnalysisSection (Plot3d.derivatives plot3dData) x0 y0;;
   do st2 <- getApp;
   let key := cacheKey expr x0 y0 (AppState.isDarkMode st2) in
   setApp (AppState.with_cachedPlots
             (<[key := CachedPlot.mk plot3dData plot2dData]>
                (AppState.cachedPlots st2)) st2))%action.

Definition plotFunction : Action N unit :=
  try_catch_finally plotFunction_body
    (fun message => (showError message;; emit (ConsoleError message))%action)
    hideLoading.

(** *** Plot visibility toggles *)

Definition setVisibility (f : PlotVisibility.t -> PlotVisibility.t)
  : Action N unit :=
  (do st <- getApp;
   setApp (AppState.with_plotVisibility (f (AppState.plotVisibility st)) st))%action.

Definition flipSurface (v : PlotVisibility.t) : PlotVisibility.t :=
  PlotVisibility.mk (negb (PlotVisibility.surface v))
    (PlotVisibility.tangentPlane v) (PlotVisibility.gradient v)
    (PlotVisibility.contour v) (PlotVisibility.vectors v).

Definition flipPlane (v : PlotVisibility.t) : PlotVisibility.t :=
  PlotVisibility.mk (PlotVisibility.surface v)
    (negb (PlotVisibility.tangentPlane v)) (PlotVisibility.gradient v)
    (PlotVisibility.contour v) (PlotVisibility.vectors v).

Definition flipGradient (v : PlotVisibility.t) : PlotVisibility.t :=
  PlotVisibility.mk (PlotVisibility.surface v)
    (PlotVisibility.tangentPlane v) (negb (PlotVisibility.gradient v))
    (PlotVisibility.contour v) (PlotVisibility.vectors v).

Definition flipContour (v : PlotVisibility.t) : PlotVisibility.t :=
  PlotVisibility.mk (PlotVisibility.surface v)
    (PlotVisibility.tangentPlane v) (PlotVisibility.gradient v)
    (negb (PlotVisibility.contour v)) (PlotVisibility.vectors v).

Definition flipVectors (v : PlotVisibility.t) : PlotVisibility.t :=
  PlotVisibility.mk (PlotVisibility.surface v)
    (PlotVisibility.tangentPlane v) (PlotVisibility.gradient v)
    (PlotVisibility.contour v) (negb (PlotVisibility.vectors v)).

Definition toggleSurface : Action N unit :=
  (setVisibility flipSurface;; plotFunction)%action.

Definition togglePlane : Action N unit :=
  (setVisibility flipPlane;; plotFunction)%action.

Definition toggleGradient : Action N unit :=
  (setVisibility flipGradient;; plotFunction)%action.

Definition toggleContour : Action N unit :=
  (setVisibility flipContour;; plotFunction)%action.

Definition toggleVectors : Action N unit :=
  (setVisibility flipVectors;; plotFunction)%action.

(** The object literals the two generators return, as functions of the
    sampled values. *)
Definition plot3d_of (st : AppState.t N) (x0 y0 : number)
    (zVals : list (list number)) (fx0 fy0 f0 : number) (fx fy : N)
  : Plot3d.t N :=
  Plot3d.mk
    (Surface.mk grid3d grid3d zVals "surface" "f(x,y)"
       (if AppState.isDarkMode st then "Viridis" else "Blues")
       (PlotVisibility.surface (AppState.plotVisibility st)))
    (TangentPlane.mk grid3d grid3d
       (map (fun x =>
               map (fun y => (f0 + fx0 * (x - x0) + fy0 * (y - y0))%float)
                   grid3d)
            grid3d)
       "surface" "Tangent Plane" 0.6%float
       (if AppState.isDarkMode st then "YlOrRd" else "Reds")
       false
       (PlotVisibility.tangentPlane (AppState.plotVisibility st)))
    (Point.mk [x0] [y0] [f0] "markers" "scatter3d"
       (Marker.mk 8%float "#ef4444")
       ("(" ++ formatNumber x0 2 ++ ", " ++ formatNumber y0 2 ++ ")")
       true)
    (Gradient.mk [x0; (x0 + fx0 / 2)%float] [y0; (y0 + fy0 / 2)%float]
       [f0; (f0 + (fx0 + fy0) / 2)%float] "lines" "scatter3d"
       (Line.mk 6%float "#ef4444") "Gradient"
       (PlotVisibility.gradient (AppState.plotVisibility st)))
    (Derivatives.mk fx0 fy0 f0 fx fy).

Definition vector_of (st : AppState.t N) (x y gx gy : number) : Vector.t :=
  Vector.mk [x; (x + 0.2 * gx)%float] [y; (y + 0.2 * gy)%float] "lines"
    "scatter" (Line.mk 1%float "#1e293b") false
    (PlotVisibility.vectors (AppState.plotVisibility st)).

Definition plot2d_of (st : AppState.t N) (contourZ : list (list number))
    (rows : list (list Vector.t)) : Plot2d.t :=
  Plot2d.mk
    (Contour.mk grid2d grid2d contourZ "contour" "heatmap" false
       (PlotVisibility.contour (AppState.plotVisibility st)))
    (concat rows).

(** The key [plotFunction] stores a request under. *)
Definition requestKey (d : Dom.t) (isDarkMode : bool) : string :=
  cacheKey (trim (Dom.func d)) (Dom.x0 d) (Dom.y0 d) isDarkMode.

End Program.

(** ** A concrete runtime, library and host

    [JsNumber] follows ECMAScript's [Number::toString] and
    [Number.prototype.toFixed] on binary64 values, in exact integer
    arithmetic. *)

Module JsNumber.

(** Decimal digits of a non-negative integer. *)
Definition digits (n : Z) : string := NilZero.string_of_uint (N.to_uint (Z.to_N n)).

Fixpoint zeros (n : nat) : string :=
  match n with O => "" | S k => String "0" (zeros k) end.

Definition pow10 (n : Z) : Z := 10 ^ n.

(** [toFixed]'s integer: the [n] for which [n / 10^f - m * 2^e] is closest to
    zero, the larger one on a tie. *)
Definition fixed_integer (m : positive) (e : Z) (f : nat) : Z :=
  let scaled := (Z.pos m * pow10 (Z.of_nat f))%Z in
  if (0 <=? e)%Z then (scaled * 2 ^ e)%Z
  else let q := (2 ^ (- e))%Z in ((2 * scaled + q) / (2 * q))%Z.

Definition insert_point (m : string) (f : nat) : string :=
  match f with
  | O => m
  | _ =>
      let m' := zeros (S f - String.length m) ++ m in
      let k := String.length m' in
      substring 0 (k - f) m' ++ "." ++ substring (k - f) f m'
  end.

Definition shortest_fuel : nat := 17.

(** The rounding interval of [m * 2^e], in units of [2^(e-2)]: (low, value, high). *)
Definition interval (m : positive) (e : Z) : Z * Z * Z :=
  let v := (4 * Z.pos m)%Z in
  let low := if ((Z.pos m =? 2 ^ 52) && (-1074 <? e))%Z then (v - 1)%Z else (v - 2)%Z in
  (low, v, (v + 2)%Z).

(** Comparison of [a * 10^q] with [b * 2^t] (a, b integers). *)
Definition cmp_scaled (a q b t : Z) : comparison :=
  let l := if (0 <=? q)%Z then (a * pow10 q)%Z else a in
  let r := if (0 <=? q)%Z then b else (b * pow10 (- q))%Z in
  let l' := if (0 <=? t)%Z then l else (l * 2 ^ (- t))%Z in
  let r' := if (0 <=? t)%Z then (r * 2 ^ t)%Z else r in
  (l' ?= r')%Z.

(** The [n] with [10^(n-1) <= m * 2^e < 10^n]. *)
Fixpoint magnitude_from (fuel : nat) (n : Z) (m : positive) (e : Z) : Z :=
  match fuel with
  | O => n
  | S k => match cmp_scaled 1 n (Z.pos m) e with
           | Gt => n
           | _ => magnitude_from k (n + 1)%Z m e
           end
  end.
Definition magnitude (m : positive) (e : Z) : Z := magnitude_from 700 (-330) m e.

(** floor (m * 2^e / 10^q) *)
Definition floor_scaled (m : positive) (e q : Z) : Z :=
  let num := (Z.pos m * (if (0 <=? e)%Z then 2 ^ e else 1) * (if (0 <=? q)%Z then 1 else pow10 (- q)))%Z in
  let den := ((if (0 <=? e)%Z then 1 else 2 ^ (- e)) * (if (0 <=? q)%Z then pow10 q else 1))%Z in
  (num / den)%Z.

(** Whether [s * 10^q] rounds to [m * 2^e]. *)
Definition rounds_to (m : positive) (e : Z) (s q : Z) : bool :=
  let '(low, _, high) := interval m e in
  let even := Z.even (Z.pos m) in
  let above_low := match cmp_scaled s q low (e - 2) with
                   | Gt => true | Eq => even | Lt => false end in
  let below_high := match cmp_scaled s q high (e - 2) with
                    | Lt => true | Eq => even | Gt => false end in
  above_low && below_high.

(** |s * 10^q - v| compared for the two neighbours s and s + 1 of v:
    [Lt] when s is closer. *)
Definition closer (m : positive) (e : Z) (s q : Z) : comparison :=
  (* (v - s*10^q) ?= ((s+1)*10^q - v)  <=>  2v ?= (2s+1) * 10^q *)
  match cmp_scaled (2 * s + 1) q (2 * Z.pos m) e with
  | Gt => Lt | Eq => Eq | Lt => Gt
  end.

Fixpoint shortest_from (fuel : nat) (k : Z) (n : Z) (m : positive) (e : Z) : Z * Z :=
  let q := (n - k)%Z in
  let s := floor_scaled m e q in
  let lo_ok := rounds_to m e s q && (0 <? s)%Z in
  let hi_ok := rounds_to m e (s + 1) q in
  let pick :=
    if lo_ok && hi_ok then
      match closer m e s q with
      | Lt => Some s | Gt => Some (s + 1)%Z
      | Eq => Some (if Z.even s then s else (s + 1)%Z)
      end
    else if lo_ok then Some s
    else if hi_ok then Some (s + 1)%Z
    else None in
  match pick, fuel with
  | Some s', _ => (s', q)
  | None, O => (s, q)
  | None, S f => shortest_from f (k + 1)%Z n m e
  end.

Fixpoint strip_zeros (fuel : nat) (s q : Z) : Z * Z :=
  match fuel with
  | O => (s, q)
  | S f => if ((s mod 10 =? 0) && (0 <? s))%Z then strip_zeros f (s / 10)%Z (q + 1)%Z
           else (s, q)
  end.

Definition exponent_text (x : Z) : string :=
  (if (x <? 0)%Z then "-" else "+") ++ digits (Z.abs x).

(** [Number::toString] of the positive finite value [m * 2^e]. *)
Definition positive_toString (m : positive) (e : Z) : string :=
  let n0 := magnitude m e in
  let '(s0, q0) := shortest_from shortest_fuel 1 n0 m e in
  let '(s, q) := strip_zeros 25 s0 q0 in
  let ds := digits s in
  let k := Z.of_nat (String.length ds) in
  let n := (q + k)%Z in
  if ((k <=? n) && (n <=? 21))%Z then ds ++ zeros (Z.to_nat (n - k))
  else if ((0 <? n) && (n <=? 21))%Z then
    substring 0 (Z.to_nat n) ds ++ "." ++ substring (Z.to_nat n) (Z.to_nat (k - n)) ds
  else if ((-6 <? n) && (n <=? 0))%Z then "0." ++ zeros (Z.to_nat (- n)) ++ ds
  else if (k =? 1)%Z then ds ++ "e" ++ exponent_text (n - 1)
  else substring 0 1 ds ++ "." ++ substring 1 (Z.to_nat (k - 1)) ds
       ++ "e" ++ exponent_text (n - 1).

Definition toString (v : number) : string :=
  match Prim2SF v with
  | S754_nan => "NaN"
  | S754_zero _ => "0"
  | S754_infinity s => if s then "-Infinity" else "Infinity"
  | S754_finite s m e => (if s then "-" else "") ++ positive_toString m e
  end.

Definition toFixed (v : number) (f : nat) : string :=
  match Prim2SF v with
  | S754_nan => "NaN"
  | S754_infinity s => if s then "-Infinity" else "Infinity"
  | S754_zero _ => insert_point "0" f
  | S754_finite s m e =>
      if (1e21 <=? abs v)%float then toString v
      else (if s then "-" else "") ++ insert_point (digits (fixed_integer m e f)) f
  end.

End JsNumber.

(** [MiniMath] is an expression library over numbers, with math.js's
    behaviour on the expressions listed in [known_expressions]: arithmetic is
    IEEE arithmetic (a division by zero gives an infinity or NaN and does not
    throw), [nthRoot] of a negative number throws, and [derivative] builds
    the trees of math.js's differentiation rules (its final simplification,
    which keeps values, is left out).  Any other text is a syntax error
    here. *)
Module MiniMath.

Inductive expr : Type :=
| Const (c : number)
| SymX
| SymY
| Add (a b : expr)
| Sub (a b : expr)
| Mul (a b : expr)
| Div (a b : expr)
| Neg (a : expr)
| Pow (a : expr) (n : nat)
| Abs (a : expr)
| Sqrt (a : expr)
| NthRoot (a : expr).

Fixpoint pow_nat (v : number) (n : nat) : number :=
  match n with
  | O => 1%float
  | S k => (v * pow_nat v k)%float
  end.

Fixpoint eval (e : expr) (x y : number) : Completion number :=
  match e with
  | Const c => Normal c
  | SymX => Normal x
  | SymY => Normal y
  | Add a b => u ← eval a x y; v ← eval b x y; mret (u + v)%float
  | Sub a b => u ← eval a x y; v ← eval b x y; mret (u - v)%float
  | Mul a b => u ← eval a x y; v ← eval b x y; mret (u * v)%float
  | Div a b => u ← eval a x y; v ← eval b x y; mret (u / v)%float
  | Neg a => u ← eval a x y; mret (- u)%float
  | Pow a n => u ← eval a x y; mret (pow_nat u n)
  | Abs a => u ← eval a x y; mret (abs u)
  | Sqrt a => u ← eval a x y; mret (sqrt u)
  | NthRoot a =>
      u ← eval a x y;
      if (u <? 0)%float then Throw "Root must be odd when a is negative."
      else mret (sqrt u)
  end.

Fixpoint depends_on (v : string) (e : expr) : bool :=
  match e with
  | Const _ => false
  | SymX => String.eqb v "x"
  | SymY => String.eqb v "y"
  | Add a b | Sub a b | Mul a b | Div a b => depends_on v a || depends_on v b
  | Neg a | Pow a _ | Abs a | Sqrt a | NthRoot a => depends_on v a
  end.

Fixpoint diff (v : string) (e : expr) : expr :=
  if negb (depends_on v e) then Const 0%float
  else
    match e with
    | Const _ => Const 0%float
    | SymX | SymY => Const 1%float
    | Add a b => Add (diff v a) (diff v b)
    | Sub a b => Sub (diff v a) (diff v b)
    | Mul a b =>
        if negb (depends_on v a) then Mul a (diff v b)
        else if negb (depends_on v b) then Mul b (diff v a)
        else Add (Mul (diff v a) b) (Mul a (diff v b))
    | Div a b =>
        if negb (depends_on v b) then Div (diff v a) b
        else if negb (depends_on v a) then
          Mul (Neg a) (Div (diff v b) (Pow b 2))
        else Div (Sub (Mul (diff v a) b) (Mul a (diff v b))) (Pow b 2)
    | Neg a => Neg (diff v a)
    | Pow a n =>
        match n with
        | O => Const 0%float
        | S O => diff v a
        | S k => Mul (Const (of_uint63 (Uint63.of_nat n)))
                     (Mul (diff v a) (Pow a k))
        end
    | Abs a => Mul (diff v a) (Div (Abs a) a)
    | Sqrt a | NthRoot a => Div (diff v a) (Mul (Const 2%float) (Sqrt a))
    end.

Definition known_expressions : list (string * expr) :=
  [ ("x^2 + y^2", Add (Pow SymX 2) (Pow SymY 2));
    ("x^2", Pow SymX 2);
    ("x*y", Mul SymX SymY);
    ("x + y", Add SymX SymY);
    ("1/x", Div (Const 1%float) SymX);
    ("abs(x)", Abs SymX);
    ("nthRoot(x)", NthRoot SymX) ].

Fixpoint lookup_expression (text : string) (l : list (string * expr))
  : Completion expr :=
  match l with
  | [] => Throw "Syntax error"
  | (t, e) :: l' => if String.eqb text t then Normal e
                    else lookup_expression text l'
  end.

Definition parse (text : string) : Completion expr :=
  lookup_expression text known_expressions.

Definition derivative (e : expr) (v : string) : Completion expr :=
  Normal (diff v e).

Definition lib : MathJs := Build_MathJs expr parse derivative eval.

(** A page whose plots always render. *)
Definition host : Host :=
  Build_Host JsNumber.toString JsNumber.toFixed (fun _ _ _ => Normal tt).

(** The state the script starts from. *)
Definition initialState : AppState.t expr :=
  AppState.mk "x^2 + y^2" 1%float 2%float false
    (PlotVisibility.mk true true true true true) ∅ false.

Definition page (func : string) (x0 y0 : number) : World.t expr :=
  World.mk initialState (Dom.mk func x0 y0) [].

End MiniMath.

(** * Properties *)

(** ** Abrupt completion and traversals *)

Lemma bind_Normal {A B} (c : Completion A) (k : A -> Completion B) (b : B) :
  c ≫= k = Normal b -> exists a, c = Normal a /\ k a = Normal b.
Proof.
  destruct c as [a|m]; simpl; intros E; [eauto | discriminate].
Qed.

Lemma try_catch_Normal {A} (c : Completion A) (h : string -> Completion A) a :
  (forall m, h m <> Normal a) ->
  try_catch c h = Normal a -> c = Normal a.
Proof.
  intros Hh; destruct c as [a'|m]; simpl; intros E; [exact E|].
  exfalso; exact (Hh m E).
Qed.

Lemma map_throwing_Normal {A B} (f : A -> Completion B) l bs :
  map_throwing f l = Normal bs ->
  forall i a, nth_error l i = Some a ->
    exists b, nth_error bs i = Some b /\ f a = Normal b.
Proof.
  revert bs; induction l as [|a0 l IH]; intros bs E i a Hi.
  - destruct i; discriminate.
  - simpl in E. apply bind_Normal in E as (b0 & E0 & E).
    apply bind_Normal in E as (bs' & E1 & E). injection E as <-.
    destruct i as [|i]; simpl in *.
    + injection Hi as <-. eauto.
    + eauto.
Qed.

Lemma map_throwing_length {A B} (f : A -> Completion B) l bs :
  map_throwing f l = Normal bs -> length bs = length l.
Proof.
  revert bs; induction l as [|a0 l IH]; intros bs E; simpl in E.
  - injection E as <-. reflexivity.
  - apply bind_Normal in E as (b0 & E0 & E).
    apply bind_Normal in E as (bs' & E1 & E). injection E as <-.
    simpl. f_equal. eauto.
Qed.

(** The first element on which the callback throws decides the outcome. *)
Lemma map_throwing_first_Throw {A B} (f : A -> Completion B) l i a m :
  nth_error l i = Some a ->
  f a = Throw m ->
  (forall k a', (k < i)%nat -> nth_error l k = Some a' ->
     exists b, f a' = Normal b) ->
  map_throwing f l = Throw m.
Proof.
  revert i; induction l as [|a0 l IH]; intros i Hi Ha Hbefore.
  - destruct i; discriminate.
  - destruct i as [|i]; simpl in Hi.
    + injection Hi as ->. simpl. rewrite Ha. reflexivity.
    + destruct (Hbefore 0%nat a0) as (b0 & E0); [lia | reflexivity |].
      simpl. rewrite E0. simpl.
      rewrite (IH i Hi Ha); [reflexivity|].
      intros k a' Hk Hk'. apply (Hbefore (S k) a'); [lia | exact Hk'].
Qed.

(** A traversal either returns or throws (it always ends). *)
Lemma map_throwing_total {A B} (f : A -> Completion B) l :
  (exists bs, map_throwing f l = Normal bs) \/
  (exists i a m, nth_error l i = Some a /\ f a = Throw m /\
                 map_throwing f l = Throw m).
Proof.
  induction l as [|a0 l IH]; simpl.
  - left; eauto.
  - destruct (f a0) as [b0|m] eqn:E0; simpl.
    + destruct IH as [(bs & ->) | (i & a & m & Hi & Ha & ->)]; simpl.
      * left; eauto.
      * right. exists (S i), a, m. auto.
    + right. exists 0%nat, a0, m. auto.
Qed.

(** ** What the generators return *)

Section Generators.

Context (M : MathJs) (H : Host).

Local Abbreviation N := (Node M).

(** The grid samples of an expression on [xs] x [ys], row by row. *)
Local Abbreviation samples f xs ys :=
  (map_throwing (fun x => map_throwing (fun y => evaluate M f x y) ys) xs).

Lemma generate3DPlotData_Normal (st : AppState.t N) expr x0 y0 d :
  generate3DPlotData M H st expr x0 y0 = Normal d ->
  exists f fx fy zVals fx0 fy0 f0,
    math_parse M expr = Normal f /\
    math_derivative M f "x" = Normal fx /\
    math_derivative M f "y" = Normal fy /\
    samples f grid3d grid3d = Normal zVals /\
    evaluate M fx x0 y0 = Normal fx0 /\
    evaluate M fy x0 y0 = Normal fy0 /\
    evaluate M f x0 y0 = Normal f0 /\
    d = plot3d_of M H st x0 y0 zVals fx0 fy0 f0 fx fy.
Proof.
  unfold generate3DPlotData. intros E.
  apply try_catch_Normal in E; [|discriminate].
  apply bind_Normal in E as (f & Ef & E).
  apply bind_Normal in E as (fx & Efx & E).
  apply bind_Normal in E as (fy & Efy & E).
  apply bind_Normal in E as (zVals & Ez & E).
  apply bind_Normal in E as (fx0 & Efx0 & E).
  apply bind_Normal in E as (fy0 & Efy0 & E).
  apply bind_Normal in E as (f0 & Ef0 & E).
  injection E as <-.
  exists f, fx, fy, zVals, fx0, fy0, f0.
  exact (conj Ef (conj Efx (conj Efy (conj Ez (conj Efx0 (conj Efy0
           (conj Ef0 eq_refl))))))).
Qed.

Lemma generate2DPlotData_Normal (st : AppState.t N) expr x0 y0 d :
  generate2DPlotData M st expr x0 y0 = Normal d ->
  exists f fx fy contourZ rows,
    math_parse M expr = Normal f /\
    math_derivative M f "x" = Normal fx /\
    math_derivative M f "y" = Normal fy /\
    samples f grid2d grid2d = Normal contourZ /\
    map_throwing
      (fun x =>
         map_throwing
           (fun y => gx ← evaluate M fx x y; gy ← evaluate M fy x y;
                     mret (vector_of M st x y gx gy))
           grid2d)
      grid2d = Normal rows /\
    d = plot2d_of M st contourZ rows.
Proof.
  unfold generate2DPlotData. intros E.
  apply try_catch_Normal in E; [|discriminate].
  apply bind_Normal in E as (f & Ef & E).
  apply bind_Normal in E as (fx & Efx & E).
  apply bind_Normal in E as (fy & Efy & E).
  apply bind_Normal in E as (contourZ & Ez & E).
  apply bind_Normal in E as (rows & Er & E).
  injection E as <-.
  exists f, fx, fy, contourZ, rows.
  exact (conj Ef (conj Efx (conj Efy (conj Ez (conj Er eq_refl))))).
Qed.

(** Reading a cell of a sampled grid. *)
Lemma samples_cell f xs ys zs i j x y :
  samples f xs ys = Normal zs ->
  nth_error xs i = Some x -> nth_error ys j = Some y ->
  exists row v, nth_error zs i = Some row /\ nth_error row j = Some v /\
                evaluate M f x y = Normal v.
Proof.
  intros E Hi Hj.
  destruct (map_throwing_Normal _ _ _ E i x Hi) as (row & Hrow & Erow).
  destruct (map_throwing_Normal _ _ _ Erow j y Hj) as (v & Hv & Ev).
  eauto.
Qed.

(** Reading a cell of the tangent plane. *)
Lemma tangent_cell (f0 fx0 fy0 x0 y0 : number) xs ys i j x y :
  nth_error xs i = Some x -> nth_error ys j = Some y ->
  exists row,
    nth_error
      (map (fun x => map (fun y => (f0 + fx0 * (x - x0) + fy0 * (y - y0))%float) ys)
           xs) i = Some row /\
    nth_error row j = Some (f0 + fx0 * (x - x0) + fy0 * (y - y0))%float.
Proof.
  intros Hi Hj. eexists. split.
  - rewrite nth_error_map, Hi. reflexivity.
  - rewrite nth_error_map, Hj. reflexivity.
Qed.

End Generators.

(** ** Binary64 arithmetic at the centre point *)

Lemma SF64sub_diag v : SF_finite v = true -> SF64sub v v = S754_zero false.
Proof.
  destruct v as [s|s| |s m e]; try discriminate; intros _.
  - destruct s; reflexivity.
  - unfold SF64sub, SFsub. cbv zeta. rewrite Z.sub_diag. reflexivity.
Qed.

Lemma SF64mul_zero v z :
  SF_finite v = true -> SF_zero z = true -> SF_zero (SF64mul v z) = true.
Proof.
  destruct v as [s|s| |s m e]; try discriminate;
    destruct z as [s'|s'| |s' m' e']; try discriminate; reflexivity.
Qed.

Lemma SF64add_zero a b z :
  SFeqb b b = true -> SF_same a b -> SF_zero z = true ->
  SF_same (SF64add a z) b.
Proof.
  intros Hb [-> | [Ha Hb']] Hz.
  - destruct b as [s|s| |s m e]; destruct z as [s'|s'| |s' m' e'];
      try discriminate; try (left; reflexivity).
    right; split; [|reflexivity]. destruct s, s'; reflexivity.
  - destruct a as [s|s| |s m e]; try discriminate.
    destruct z as [s'|s'| |s' m' e']; try discriminate.
    right; split; [|assumption]. destruct s, s'; reflexivity.
Qed.

Lemma SFeqb_same a b : SFeqb b b = true -> SF_same a b -> SFeqb a b = true.
Proof.
  intros Hb [-> | [Ha Hb']]; [assumption|].
  destruct a; try discriminate; destruct b; try discriminate; reflexivity.
Qed.

(** With a finite centre and finite partial derivatives, the first-order
    terms vanish at the centre and the sum is [f0] again (up to the sign of
    a zero, which [===] does not see). *)
Lemma tangent_at_centre (f0 fx0 fy0 x0 y0 : number) :
  finite x0 = true -> finite y0 = true ->
  finite fx0 = true -> finite fy0 = true ->
  (f0 =? f0)%float = true ->
  (f0 + fx0 * (x0 - x0) + fy0 * (y0 - y0) =? f0)%float = true.
Proof.
  unfold finite. intros Hx Hy Hfx Hfy Hf.
  rewrite FloatAxioms.eqb_spec in *.
  rewrite !add_spec, !mul_spec, !sub_spec.
  apply SFeqb_same; [assumption|].
  apply SF64add_zero; [assumption| |].
  - apply SF64add_zero; [assumption | left; reflexivity |].
    apply SF64mul_zero; [exact Hfx|].
    rewrite SF64sub_diag by exact Hx. reflexivity.
  - apply SF64mul_zero; [exact Hfy|].
    rewrite SF64sub_diag by exact Hy. reflexivity.
Qed.

(** ** The grids *)

Example grid3d_values :
  grid3d = [-5; -4.75; -4.5; -4.25; -4; -3.75; -3.5; -3.25; -3; -2.75; -2.5;
            -2.25; -2; -1.75; -1.5; -1.25; -1; -0.75; -0.5; -0.25; 0; 0.25;
            0.5; 0.75; 1; 1.25; 1.5; 1.75; 2; 2.25; 2.5; 2.75; 3; 3.25; 3.5;
            3.75; 4; 4.25; 4.5; 4.75]%float.
Proof. vm_compute. reflexivity. Qed.

Example grid2d_values :
  grid2d = [-5; -4.5; -4; -3.5; -3; -2.5; -2; -1.5; -1; -0.5; 0; 0.5; 1; 1.5;
            2; 2.5; 3; 3.5; 4; 4.5]%float.
Proof. vm_compute. reflexivity. Qed.

(** ** The tangent plane, the gradient segment and the point marker *)

Section Sampler.

Context (M : MathJs) (H : Host).

Local Abbreviation N := (Node M).

(** C1 (as amended).  When [generate3DPlotData] returns, the tangent-plane
    height stored for the grid point [(x, y)] is
    [f0 + fx0 * (x - x0) + fy0 * (y - y0)] in binary64 arithmetic, where
    [f0], [fx0], [fy0] are the library's values of the expression and of its
    two partial derivatives at [(x0, y0)]; and when [x0], [y0], [fx0], [fy0]
    are finite and [f0] is not NaN, that formula at [(x0, y0)] is a number
    equal ([===]) to [f0]. *)
Theorem tangent_plane_heights (st : AppState.t N) expr x0 y0 d :
  generate3DPlotData M H st expr x0 y0 = Normal d ->
  let f0 := Derivatives.f0 (Plot3d.derivatives d) in
  let fx0 := Derivatives.fx0 (Plot3d.derivatives d) in
  let fy0 := Derivatives.fy0 (Plot3d.derivatives d) in
  (exists f fx fy,
      math_parse M expr = Normal f /\
      math_derivative M f "x" = Normal fx /\
      math_derivative M f "y" = Normal fy /\
      evaluate M f x0 y0 = Normal f0 /\
      evaluate M fx x0 y0 = Normal fx0 /\
      evaluate M fy x0 y0 = Normal fy0) /\
  (forall i j x y,
      nth_error grid3d i = Some x -> nth_error grid3d j = Some y ->
      exists row,
        nth_error (TangentPlane.z (Plot3d.tangentPlane d)) i = Some row /\
        nth_error row j
        = Some (f0 + fx0 * (x - x0) + fy0 * (y - y0))%float) /\
  (finite x0 = true -> finite y0 = true ->
   finite fx0 = true -> finite fy0 = true ->
   (f0 =? f0)%float = true ->
   (f0 + fx0 * (x0 - x0) + fy0 * (y0 - y0) =? f0)%float = true).
Proof.
  intros E.
  apply generate3DPlotData_Normal in E
    as (f & fx & fy & zVals & fx0 & fy0 & f0 & Ef & Efx & Efy & Ez & Efx0
        & Efy0 & Ef0 & ->).
  cbn [plot3d_of Plot3d.derivatives Plot3d.tangentPlane TangentPlane.z
       Derivatives.f0 Derivatives.fx0 Derivatives.fy0].
  split; [|split].
  - exists f, fx, fy. auto 10.
  - intros i j x y Hi Hj. apply tangent_cell; assumption.
  - apply tangent_at_centre.
Qed.

(** C9.  The gradient segment is the two-point line from [(x0, y0, f0)] to
    [(x0 + fx0/2, y0 + fy0/2, f0 + (fx0 + fy0)/2)], with [f0], [fx0], [fy0]
    the values of the expression and of its partial derivatives at
    [(x0, y0)]. *)
Theorem gradient_segment (st : AppState.t N) expr x0 y0 d :
  generate3DPlotData M H st expr x0 y0 = Normal d ->
  exists f fx fy f0 fx0 fy0,
    math_parse M expr = Normal f /\
    math_derivative M f "x" = Normal fx /\
    math_derivative M f "y" = Normal fy /\
    evaluate M f x0 y0 = Normal f0 /\
    evaluate M fx x0 y0 = Normal fx0 /\
    evaluate M fy x0 y0 = Normal fy0 /\
    Gradient.x (Plot3d.gradient d) = [x0; (x0 + fx0 / 2)%float] /\
    Gradient.y (Plot3d.gradient d) = [y0; (y0 + fy0 / 2)%float] /\
    Gradient.z (Plot3d.gradient d) = [f0; (f0 + (fx0 + fy0) / 2)%float] /\
    Gradient.mode (Plot3d.gradient d) = "lines".
Proof.
  intros E.
  apply generate3DPlotData_Normal in E
    as (f & fx & fy & zVals & fx0 & fy0 & f0 & Ef & Efx & Efy & Ez & Efx0
        & Efy0 & Ef0 & ->).
  exists f, fx, fy, f0, fx0, fy0. cbn. auto 12.
Qed.

(** C10.  The point marker of every 3D plot has [visible = true], whatever
    the five toggles are, and it is among the traces [render3DPlot] hands to
    the plotting library. *)
Theorem point_marker_always_visible (st : AppState.t N) expr x0 y0 d
    (w : World.t N) :
  generate3DPlotData M H st expr x0 y0 = Normal d ->
  Point.visible (Plot3d.point d) = true /\
  exists traces layout,
    World.log (snd (render3DPlot M H d w))
    = (World.log w ++ [NewPlot "plot3d" traces layout])%list /\
    In (PointTrace (Plot3d.point d)) traces.
Proof.
  intros E.
  apply generate3DPlotData_Normal in E
    as (f & fx & fy & zVals & fx0 & fy0 & f0 & _ & _ & _ & _ & _ & _ & _ & ->).
  split; [reflexivity|].
  unfold render3DPlot, bind, getApp, emit, lift. cbn -[List.filter].
  do 2 eexists. split; [reflexivity|].
  apply List.filter_In. split; [|reflexivity].
  cbn. auto.
Qed.

End Sampler.

(** ** Failure and success of a grid traversal *)

Lemma map_throwing_all_Normal {A B} (f : A -> Completion B) l :
  (forall i a, nth_error l i = Some a -> exists b, f a = Normal b) ->
  exists bs, map_throwing f l = Normal bs.
Proof.
  intros Hall.
  destruct (map_throwing_total f l) as [Hn | (i & a & m & Hi & Ha & _)];
    [exact Hn|].
  destruct (Hall i a Hi) as (b & Hb). congruence.
Qed.

Lemma map_throwing_ext {A B} (f g : A -> Completion B) l :
  (forall a, f a = g a) -> map_throwing f l = map_throwing g l.
Proof.
  intros E; induction l as [|a l IH]; simpl; [reflexivity|].
  rewrite E, IH. reflexivity.
Qed.

Lemma map_throwing_on_normal {A B C} (f : A -> Completion B) (g : B -> C) l :
  map_throwing (fun a => on_normal g (f a)) l
  = on_normal (map g) (map_throwing f l).
Proof.
  induction l as [|a l IH]; simpl; [reflexivity|].
  rewrite IH. destruct (f a); simpl; [|reflexivity].
  destruct (map_throwing f l); reflexivity.
Qed.

Section Grid.

Context {A : Type} (g : number -> number -> Completion A).

(** A nested traversal stops at the first cell, row by row, whose
    evaluation throws. *)
Lemma grid_first_Throw xs ys i j x y m :
  nth_error xs i = Some x -> nth_error ys j = Some y ->
  g x y = Throw m ->
  (forall i' j' x' y', cell_before i' j' i j ->
     nth_error xs i' = Some x' -> nth_error ys j' = Some y' ->
     exists v, g x' y' = Normal v) ->
  map_throwing (fun x => map_throwing (fun y => g x y) ys) xs = Throw m.
Proof.
  intros Hi Hj Hm Hbefore.
  apply (map_throwing_first_Throw _ xs i x m Hi).
  - apply (map_throwing_first_Throw _ ys j y m Hj Hm).
    intros k y' Hk Hy'. apply (Hbefore i k x y'); auto. right; auto.
  - intros k x' Hk Hx'. apply map_throwing_all_Normal.
    intros j' y' Hy'. apply (Hbefore k j' x' y'); auto. left; exact Hk.
Qed.

Lemma grid_cell xs ys zs i j x y :
  map_throwing (fun x => map_throwing (fun y => g x y) ys) xs = Normal zs ->
  nth_error xs i = Some x -> nth_error ys j = Some y ->
  exists row v, nth_error zs i = Some row /\ nth_error row j = Some v /\
                g x y = Normal v.
Proof.
  intros E Hi Hj.
  destruct (map_throwing_Normal _ _ _ E i x Hi) as (row & Hrow & Erow).
  destruct (map_throwing_Normal _ _ _ Erow j y Hj) as (v & Hv & Ev).
  eauto.
Qed.

End Grid.

(** ** Validation, evaluation failures, determinism and the toggles *)

Section Assembler.

Context (M : MathJs) (H : Host).

Local Abbreviation N := (Node M).

(** C5 (as amended).  An expression is accepted by validation exactly when
    it parses and its evaluation at the test point [(1, 1)] does not throw;
    no other point takes part. *)
Theorem validation_checks_one_point expr (parsed : N) :
  validateExpression M expr = Valid parsed <->
  math_parse M expr = Normal parsed /\
  exists v, evaluate M parsed 1%float 1%float = Normal v.
Proof.
  unfold validateExpression. split.
  - destruct (math_parse M expr) as [p|m] eqn:Ep; simpl; [|discriminate].
    destruct (evaluate M p 1%float 1%float) as [v|m] eqn:Ev; simpl;
      [|discriminate].
    intros E; injection E as <-. eauto.
  - intros (-> & v & Ev). simpl. rewrite Ev. reflexivity.
Qed.

(** C4 (as amended).  A generator aborts on the first grid cell, row by
    row, at which the evaluation of the expression throws, and throws an
    error that wraps the evaluator's message; when it returns, every cell of
    the surface (of the contour) holds exactly the value the evaluator
    returned at its own grid point, whatever that value is. *)
Theorem grid_failure_aborts_and_values_pass_through
    (st : AppState.t N) expr x0 y0 :
  (forall f fx fy i j x y m,
      math_parse M expr = Normal f ->
      math_derivative M f "x" = Normal fx ->
      math_derivative M f "y" = Normal fy ->
      nth_error grid3d i = Some x -> nth_error grid3d j = Some y ->
      evaluate M f x y = Throw m ->
      (forall i' j' x' y', cell_before i' j' i j ->
         nth_error grid3d i' = Some x' -> nth_error grid3d j' = Some y' ->
         exists v, evaluate M f x' y' = Normal v) ->
      generate3DPlotData M H st expr x0 y0
      = Throw ("Error generating 3D plot: " ++ m)) /\
  (forall f fx fy i j x y m,
      math_parse M expr = Normal f ->
      math_derivative M f "x" = Normal fx ->
      math_derivative M f "y" = Normal fy ->
      nth_error grid2d i = Some x -> nth_error grid2d j = Some y ->
      evaluate M f x y = Throw m ->
      (forall i' j' x' y', cell_before i' j' i j ->
         nth_error grid2d i' = Some x' -> nth_error grid2d j' = Some y' ->
         exists v, evaluate M f x' y' = Normal v) ->
      generate2DPlotData M st expr x0 y0
      = Throw ("Error generating 2D plot: " ++ m)) /\
  (forall d, generate3DPlotData M H st expr x0 y0 = Normal d ->
      exists f, math_parse M expr = Normal f /\
        forall i j x y,
          nth_error grid3d i = Some x -> nth_error grid3d j = Some y ->
          exists row v,
            nth_error (Surface.z (Plot3d.surface d)) i = Some row /\
            nth_error row j = Some v /\ evaluate M f x y = Normal v) /\
  (forall d, generate2DPlotData M st expr x0 y0 = Normal d ->
      exists f, math_parse M expr = Normal f /\
        forall i j x y,
          nth_error grid2d i = Some x -> nth_error grid2d j = Some y ->
          exists row v,
            nth_error (Contour.z (Plot2d.contour d)) i = Some row /\
            nth_error row j = Some v /\ evaluate M f x y = Normal v).
Proof.
  repeat split.
  - intros f fx fy i j x y m Ef Efx Efy Hi Hj Hm Hbefore.
    pose proof (grid_first_Throw (evaluate M f) grid3d grid3d i j x y m
                  Hi Hj Hm Hbefore) as Es.
    unfold grid3d in Es.
    unfold generate3DPlotData. rewrite Ef. cbn [mbind Completion_bind].
    rewrite Efx. cbn [mbind Completion_bind].
    rewrite Efy. cbn [mbind Completion_bind]. cbv zeta.
    rewrite Es. reflexivity.
  - intros f fx fy i j x y m Ef Efx Efy Hi Hj Hm Hbefore.
    pose proof (grid_first_Throw (evaluate M f) grid2d grid2d i j x y m
                  Hi Hj Hm Hbefore) as Es.
    unfold grid2d in Es.
    unfold generate2DPlotData. rewrite Ef. cbn [mbind Completion_bind].
    rewrite Efx. cbn [mbind Completion_bind].
    rewrite Efy. cbn [mbind Completion_bind]. cbv zeta.
    rewrite Es. reflexivity.
  - intros d E.
    apply generate3DPlotData_Normal in E
      as (f & fx & fy & zVals & fx0 & fy0 & f0 & Ef & _ & _ & Ez & _ & _ & _
          & ->).
    exists f. split; [exact Ef|]. intros i j x y Hi Hj.
    exact (grid_cell (evaluate M f) _ _ _ i j x y Ez Hi Hj).
  - intros d E.
    apply generate2DPlotData_Normal in E
      as (f & fx & fy & contourZ & rows & Ef & _ & _ & Ez & _ & ->).
    exists f. split; [exact Ef|]. intros i j x y Hi Hj.
    exact (grid_cell (evaluate M f) _ _ _ i j x y Ez Hi Hj).
Qed.


End Assembler.

Section Toggles.

Context (M : MathJs) (H : Host).

Local Abbreviation N := (Node M).

(** The state after one flag of [AppState.plotVisibility] was flipped. *)
Local Abbreviation flipped flip st :=
  (AppState.with_plotVisibility (flip (AppState.plotVisibility st)) st).

Lemma generate3DPlotData_visibility (st : AppState.t N) v expr x0 y0 :
  generate3DPlotData M H (AppState.with_plotVisibility v st) expr x0 y0
  = on_normal
      (fun d =>
         Plot3d.mk
           (Surface.with_visible (PlotVisibility.surface v) (Plot3d.surface d))
           (TangentPlane.with_visible (PlotVisibility.tangentPlane v)
              (Plot3d.tangentPlane d))
           (Plot3d.point d)
           (Gradient.with_visible (PlotVisibility.gradient v)
              (Plot3d.gradient d))
           (Plot3d.derivatives d))
      (generate3DPlotData M H st expr x0 y0).
Proof.
  unfold generate3DPlotData.
  destruct (math_parse M expr) as [f|]; [|reflexivity].
  cbn [mbind Completion_bind].
  destruct (math_derivative M f "x") as [fx|]; [|reflexivity].
  cbn [mbind Completion_bind].
  destruct (math_derivative M f "y") as [fy|]; [|reflexivity].
  cbn [mbind Completion_bind]. cbv zeta.
  destruct (map_throwing _ (math_range _ _ _)) as [zVals|]; [|reflexivity].
  cbn [mbind Completion_bind].
  destruct (evaluate M fx x0 y0) as [fx0|]; [|reflexivity].
  cbn [mbind Completion_bind].
  destruct (evaluate M fy x0 y0) as [fy0|]; [|reflexivity].
  cbn [mbind Completion_bind].
  destruct (evaluate M f x0 y0) as [f0|]; [|reflexivity].
  reflexivity.
Qed.

Lemma vector_cell_visibility (st : AppState.t N) v (fx fy : N) x y :
  (gx ← evaluate M fx x y; gy ← evaluate M fy x y;
   mret (vector_of M (AppState.with_plotVisibility v st) x y gx gy))
  = on_normal (Vector.with_visible (PlotVisibility.vectors v))
      (gx ← evaluate M fx x y; gy ← evaluate M fy x y;
       mret (vector_of M st x y gx gy)).
Proof.
  destruct (evaluate M fx x y); [|reflexivity].
  cbn [mbind Completion_bind].
  destruct (evaluate M fy x y); reflexivity.
Qed.

Lemma vector_rows_visibility (st : AppState.t N) v (fx fy : N) xs ys :
  map_throwing
    (fun x =>
       map_throwing
         (fun y => gx ← evaluate M fx x y; gy ← evaluate M fy x y;
                   mret (vector_of M (AppState.with_plotVisibility v st)
                           x y gx gy))
         ys)
    xs
  = on_normal
      (map (map (Vector.with_visible (PlotVisibility.vectors v))))
      (map_throwing
         (fun x =>
            map_throwing
              (fun y => gx ← evaluate M fx x y; gy ← evaluate M fy x y;
                        mret (vector_of M st x y gx gy))
              ys)
         xs).
Proof.
  rewrite <- map_throwing_on_normal.
  apply map_throwing_ext. intros x.
  rewrite <- map_throwing_on_normal.
  apply map_throwing_ext. intros y.
  apply vector_cell_visibility.
Qed.

Lemma generate2DPlotData_visibility (st : AppState.t N) v expr x0 y0 :
  generate2DPlotData M (AppState.with_plotVisibility v st) expr x0 y0
  = on_normal
      (fun d =>
         Plot2d.mk
           (Contour.with_visible (PlotVisibility.contour v) (Plot2d.contour d))
           (map (Vector.with_visible (PlotVisibility.vectors v))
              (Plot2d.vectors d)))
      (generate2DPlotData M st expr x0 y0).
Proof.
  unfold generate2DPlotData.
  destruct (math_parse M expr) as [f|]; [|reflexivity].
  cbn [mbind Completion_bind].
  destruct (math_derivative M f "x") as [fx|]; [|reflexivity].
  cbn [mbind Completion_bind].
  destruct (math_derivative M f "y") as [fy|]; [|reflexivity].
  cbn [mbind Completion_bind]. cbv zeta. fold grid2d.
  destruct (map_throwing
              (fun x => map_throwing (fun y => evaluate M f x y) grid2d)
              grid2d)
    as [contourZ|]; [|reflexivity].
  cbn [mbind Completion_bind].
  pose proof (vector_rows_visibility st v fx fy grid2d grid2d) as E.
  unfold vector_of in E. rewrite E. clear E.
  destruct (map_throwing _ grid2d) as [rows|]; [|reflexivity].
  cbn. rewrite concat_map. reflexivity.
Qed.

Lemma map_throwing_Forall {A B} (f : A -> Completion B) (P : B -> Prop) l bs :
  (forall a b, f a = Normal b -> P b) ->
  map_throwing f l = Normal bs -> Forall P bs.
Proof.
  intros HP. revert bs; induction l as [|a l IH]; intros bs E; simpl in E.
  - injection E as <-. constructor.
  - apply bind_Normal in E as (b0 & E0 & E).
    apply bind_Normal in E as (bs' & E1 & E). injection E as <-.
    constructor; eauto.
Qed.

(** Every series a generator returns carries the flag of its own kind. *)
Lemma generate2DPlotData_flags (st : AppState.t N) expr x0 y0 d :
  generate2DPlotData M st expr x0 y0 = Normal d ->
  Contour.visible (Plot2d.contour d)
  = PlotVisibility.contour (AppState.plotVisibility st) /\
  Forall (fun a => Vector.visible a
                   = PlotVisibility.vectors (AppState.plotVisibility st))
         (Plot2d.vectors d).
Proof.
  intros E.
  apply generate2DPlotData_Normal in E
    as (f & fx & fy & contourZ & rows & _ & _ & _ & _ & Er & ->).
  split; [reflexivity|]. cbn [plot2d_of Plot2d.vectors].
  apply Forall_concat.
  eapply map_throwing_Forall; [|exact Er].
  intros x row Erow. eapply map_throwing_Forall; [|exact Erow].
  intros y a Ea. cbv beta in Ea.
  apply bind_Normal in Ea as (gx & _ & Ea).
  apply bind_Normal in Ea as (gy & _ & Ea). injection Ea as <-.
  reflexivity.
Qed.

Lemma map_with_visible_same flag l :
  Forall (fun a => Vector.visible a = flag) l ->
  map (Vector.with_visible flag) l = l.
Proof.
  induction 1 as [|a l Ha _ IH]; simpl; [reflexivity|].
  rewrite IH. f_equal. destruct a; simpl in *. subst. reflexivity.
Qed.

Lemma map_with_visible_negb flag l :
  Forall (fun a => Vector.visible a = flag) l ->
  map (Vector.with_visible (negb flag)) l
  = map (fun a => Vector.with_visible (negb (Vector.visible a)) a) l.
Proof.
  induction 1 as [|a l Ha _ IH]; simpl; [reflexivity|].
  rewrite IH, Ha. reflexivity.
Qed.

(** C8.  Flipping one of the five visibility flags and generating again
    gives the plot data generated before with the [visible] attribute of the
    series of that flag negated (for [vectors]: of every arrow of the vector
    field, each of which carries that flag) and nothing else changed:
    coordinates, heights, names, colours and the other series are the same,
    and so is the error when the generator throws. *)
Theorem toggle_changes_one_visible_flag (st : AppState.t N) expr x0 y0 :
  let gen3 s := generate3DPlotData M H s expr x0 y0 in
  let gen2 s := generate2DPlotData M s expr x0 y0 in
  (gen3 (flipped flipSurface st)
   = on_normal
       (fun d => Plot3d.with_surface
                   (Surface.with_visible
                      (negb (Surface.visible (Plot3d.surface d)))
                      (Plot3d.surface d)) d)
       (gen3 st)
   /\ gen2 (flipped flipSurface st) = gen2 st) /\
  (gen3 (flipped flipPlane st)
   = on_normal
       (fun d => Plot3d.with_tangentPlane
                   (TangentPlane.with_visible
                      (negb (TangentPlane.visible (Plot3d.tangentPlane d)))
                      (Plot3d.tangentPlane d)) d)
       (gen3 st)
   /\ gen2 (flipped flipPlane st) = gen2 st) /\
  (gen3 (flipped flipGradient st)
   = on_normal
       (fun d => Plot3d.with_gradient
                   (Gradient.with_visible
                      (negb (Gradient.visible (Plot3d.gradient d)))
                      (Plot3d.gradient d)) d)
       (gen3 st)
   /\ gen2 (flipped flipGradient st) = gen2 st) /\
  (gen3 (flipped flipContour st) = gen3 st
   /\ gen2 (flipped flipContour st)
      = on_normal
          (fun d => Plot2d.with_contour
                      (Contour.with_visible
                         (negb (Contour.visible (Plot2d.contour d)))
                         (Plot2d.contour d)) d)
          (gen2 st)) /\
  (gen3 (flipped flipVectors st) = gen3 st
   /\ gen2 (flipped flipVectors st)
      = on_normal
          (fun d => Plot2d.with_vectors
                      (map (fun a => Vector.with_visible
                                       (negb (Vector.visible a)) a)
                           (Plot2d.vectors d)) d)
          (gen2 st)).
Proof.
  cbv zeta.
  assert (E3 : forall flip,
             generate3DPlotData M H (flipped flip st) expr x0 y0
             = on_normal
                 (fun d =>
                    Plot3d.mk
                      (Surface.with_visible
                         (PlotVisibility.surface
                            (flip (AppState.plotVisibility st)))
                         (Plot3d.surface d))
                      (TangentPlane.with_visible
                         (PlotVisibility.tangentPlane
                            (flip (AppState.plotVisibility st)))
                         (Plot3d.tangentPlane d))
                      (Plot3d.point d)
                      (Gradient.with_visible
                         (PlotVisibility.gradient
                            (flip (AppState.plotVisibility st)))
                         (Plot3d.gradient d))
                      (Plot3d.derivatives d))
                 (generate3DPlotData M H st expr x0 y0))
    by (intros flip; apply generate3DPlotData_visibility).
  assert (E2 : forall flip,
             generate2DPlotData M (flipped flip st) expr x0 y0
             = on_normal
                 (fun d =>
                    Plot2d.mk
                      (Contour.with_visible
                         (PlotVisibility.contour
                            (flip (AppState.plotVisibility st)))
                         (Plot2d.contour d))
                      (map (Vector.with_visible
                              (PlotVisibility.vectors
                                 (flip (AppState.plotVisibility st))))
                           (Plot2d.vectors d)))
                 (generate2DPlotData M st expr x0 y0))
    by (intros flip; apply generate2DPlotData_visibility).
  assert (G3 : forall flip F,
             (forall zVals fx0 fy0 f0 fx fy,
                 let d := plot3d_of M H st x0 y0 zVals fx0 fy0 f0 fx fy in
                 Plot3d.mk
                   (Surface.with_visible
                      (PlotVisibility.surface
                         (flip (AppState.plotVisibility st)))
                      (Plot3d.surface d))
                   (TangentPlane.with_visible
                      (PlotVisibility.tangentPlane
                         (flip (AppState.plotVisibility st)))
                      (Plot3d.tangentPlane d))
                   (Plot3d.point d)
                   (Gradient.with_visible
                      (PlotVisibility.gradient
                         (flip (AppState.plotVisibility st)))
                      (Plot3d.gradient d))
                   (Plot3d.derivatives d)
                 = F d) ->
             generate3DPlotData M H (flipped flip st) expr x0 y0
             = on_normal F (generate3DPlotData M H st expr x0 y0)).
  { intros flip F HF. rewrite E3.
    destruct (generate3DPlotData M H st expr x0 y0) as [d|m] eqn:E;
      [|reflexivity].
    apply generate3DPlotData_Normal in E
      as (f & fx & fy & zVals & fx0 & fy0 & f0 & _ & _ & _ & _ & _ & _ & _
          & ->).
    simpl. f_equal. apply HF. }
  assert (G2 : forall flip F,
             (forall d,
                 Contour.visible (Plot2d.contour d)
                 = PlotVisibility.contour (AppState.plotVisibility st) ->
                 Forall (fun a => Vector.visible a
                                  = PlotVisibility.vectors
                                      (AppState.plotVisibility st))
                        (Plot2d.vectors d) ->
                 Plot2d.mk
                   (Contour.with_visible
                      (PlotVisibility.contour
                         (flip (AppState.plotVisibility st)))
                      (Plot2d.contour d))
                   (map (Vector.with_visible
                           (PlotVisibility.vectors
                              (flip (AppState.plotVisibility st))))
                        (Plot2d.vectors d))
                 = F d) ->
             generate2DPlotData M (flipped flip st) expr x0 y0
             = on_normal F (generate2DPlotData M st expr x0 y0)).
  { intros flip F HF. rewrite E2.
    destruct (generate2DPlotData M st expr x0 y0) as [d|m] eqn:E;
      [|reflexivity].
    apply generate2DPlotData_flags in E as (Hc & Hv).
    simpl. f_equal. apply HF; assumption. }
  split; [split; [apply G3; reflexivity | reflexivity]|].
  split; [split; [apply G3; reflexivity | reflexivity]|].
  split; [split; [apply G3; reflexivity | reflexivity]|].
  split; (split; [reflexivity|]).
  - apply G2. intros [c vs] Hc Hv. simpl in *.
    rewrite (map_with_visible_same _ _ Hv). unfold Plot2d.with_contour.
    simpl. f_equal. destruct c; simpl in *. subst. reflexivity.
  - apply G2. intros [c vs] Hc Hv. simpl in *.
    rewrite (map_with_visible_negb _ _ Hv). unfold Plot2d.with_vectors.
    simpl. f_equal. destruct c; simpl in *. subst. reflexivity.
Qed.

End Toggles.

(** ** The controller *)

Lemma sampler_calls_app {N} (l1 l2 : list (Event N)) :
  sampler_calls (l1 ++ l2) = (sampler_calls l1 + sampler_calls l2)%nat.
Proof.
  unfold sampler_calls. rewrite List.filter_app, length_app. reflexivity.
Qed.

Section Controller.

Context (M : MathJs) (H : Host).

Local Abbreviation N := (Node M).

(** C3.  When the trimmed expression is empty or fails validation,
    [plotFunction] shows the error and does nothing else: no generator is
    called, and the stored expression, point and cache are what they
    were. *)
Theorem invalid_input_is_reported_without_state_change (w : World.t N) :
  trim (Dom.func (World.dom w)) = ""
  \/ (exists error,
        validateExpression M (trim (Dom.func (World.dom w)))
        = Invalid error) ->
  exists message,
    World.log (snd (plotFunction M H w))
    = (World.log w
       ++ [ShowLoading; ShowError message; ConsoleError message;
           HideLoading])%list /\
    sampler_calls (World.log (snd (plotFunction M H w)))
    = sampler_calls (World.log w) /\
    AppState.currentFunction (World.app (snd (plotFunction M H w)))
    = AppState.currentFunction (World.app w) /\
    AppState.x0 (World.app (snd (plotFunction M H w)))
    = AppState.x0 (World.app w) /\
    AppState.y0 (World.app (snd (plotFunction M H w)))
    = AppState.y0 (World.app w) /\
    AppState.cachedPlots (World.app (snd (plotFunction M H w)))
    = AppState.cachedPlots (World.app w).
Proof.
  intros Hbad.
  assert (E : exists message,
             snd (plotFunction M H w)
             = World.mk
                 (AppState.with_isLoading false
                    (AppState.with_isLoading true (World.app w)))
                 (World.dom w)
                 (World.log w
                  ++ [ShowLoading; ShowError message; ConsoleError message;
                      HideLoading])%list).
  { unfold plotFunction, try_catch_finally, plotFunction_body, bind,
      showLoading, hideLoading, showError, getApp, getDom, setApp, emit,
      throw, ret.
    cbn -[String.eqb trim validateExpression].
    destruct Hbad as [-> | (error & ->)].
    - eexists. cbn. rewrite <- !app_assoc. reflexivity.
    - destruct (String.eqb (trim (Dom.func (World.dom w))) "");
        eexists; cbn; rewrite <- !app_assoc; reflexivity. }
  destruct E as (message & ->). exists message.
  cbn [World.log World.app]. split; [reflexivity|]. split.
  - rewrite sampler_calls_app. cbn. lia.
  - destruct (World.app w). cbn. auto.
Qed.

End Controller.

(** ** The program on concrete inputs *)

(** The scenario of the default page: [x^2 + y^2] at [(1, 2)]. *)
Example paraboloid_at_1_2 :
  on_normal (fun d => (Derivatives.f0 (Plot3d.derivatives d),
                       Derivatives.fx0 (Plot3d.derivatives d),
                       Derivatives.fy0 (Plot3d.derivatives d),
                       Point.name (Plot3d.point d)))
    (generate3DPlotData MiniMath.lib MiniMath.host MiniMath.initialState
       "x^2 + y^2" 1%float 2%float)
  = Normal (5%float, 2%float, 4%float, "(1.00, 2.00)").
Proof. vm_compute. reflexivity. Qed.

Lemma tangent_plane_heights_witness :
  exists d,
    generate3DPlotData MiniMath.lib MiniMath.host MiniMath.initialState
      "x^2 + y^2" 1%float 2%float = Normal d /\
    exists row,
      nth_error (TangentPlane.z (Plot3d.tangentPlane d)) 24 = Some row /\
      nth_error row 28
      = Some (Derivatives.f0 (Plot3d.derivatives d)
              + Derivatives.fx0 (Plot3d.derivatives d) * (1 - 1)
              + Derivatives.fy0 (Plot3d.derivatives d) * (2 - 2))%float.
Proof.
  destruct (generate3DPlotData MiniMath.lib MiniMath.host
              MiniMath.initialState "x^2 + y^2" 1%float 2%float)
    as [d|m] eqn:E.
  - exists d. split; [reflexivity|].
    pose proof (tangent_plane_heights MiniMath.lib MiniMath.host
                  MiniMath.initialState "x^2 + y^2" 1%float 2%float d E)
      as T.
    cbv zeta in T. destruct T as (_ & T & _).
    apply (T 24%nat 28%nat 1%float 2%float); vm_compute; reflexivity.
  - vm_compute in E. discriminate E.
Defined.

(** [abs(x)] passes validation and its value at [(0, 0)] is [0], but its
    partial derivative there is NaN, and so is the tangent height stored for
    the grid point [(0, 0)], the centre itself. *)
Lemma tangent_at_centre_counterexample :
  exists d,
    validateExpression MiniMath.lib "abs(x)"
    = Valid (MiniMath.Abs MiniMath.SymX) /\
    generate3DPlotData MiniMath.lib MiniMath.host MiniMath.initialState
      "abs(x)" 0%float 0%float = Normal d /\
    nth_error grid3d 20 = Some 0%float /\
    Derivatives.f0 (Plot3d.derivatives d) = 0%float /\
    option_map (fun row => nth_error row 20)
      (nth_error (TangentPlane.z (Plot3d.tangentPlane d)) 20)
    = Some (Some nan) /\
    (nan =? 0)%float = false.
Proof.
  destruct (generate3DPlotData MiniMath.lib MiniMath.host
              MiniMath.initialState "abs(x)" 0%float 0%float)
    as [d|m] eqn:E.
  - exists d. vm_compute in E. injection E as <-.
    repeat split; vm_compute; reflexivity.
  - vm_compute in E. discriminate E.
Qed.

Lemma invalid_input_witness :
  exists message,
    World.log (snd (plotFunction MiniMath.lib MiniMath.host
                      (MiniMath.page "x +" 1%float 2%float)))
    = [ShowLoading; ShowError message; ConsoleError message; HideLoading]
    /\ AppState.currentFunction
         (World.app (snd (plotFunction MiniMath.lib MiniMath.host
                            (MiniMath.page "x +" 1%float 2%float))))
       = "x^2 + y^2".
Proof.
  destruct (invalid_input_is_reported_without_state_change MiniMath.lib
              MiniMath.host (MiniMath.page "x +" 1%float 2%float)
              (or_intror (ex_intro _ "Syntax error" eq_refl)))
    as (message & Hlog & _ & Hf & _).
  exists message. split; [exact Hlog | exact Hf].
Defined.

Lemma grid_failure_witness :
  generate3DPlotData MiniMath.lib MiniMath.host MiniMath.initialState
    "nthRoot(x)" 1%float 2%float
  = Throw "Error generating 3D plot: Root must be odd when a is negative.".
Proof.
  apply (proj1 (grid_failure_aborts_and_values_pass_through MiniMath.lib
                  MiniMath.host MiniMath.initialState "nthRoot(x)"
                  1%float 2%float)
           (MiniMath.NthRoot MiniMath.SymX)
           (MiniMath.diff "x" (MiniMath.NthRoot MiniMath.SymX))
           (MiniMath.diff "y" (MiniMath.NthRoot MiniMath.SymX))
           0%nat 0%nat (-5)%float (-5)%float
           "Root must be odd when a is negative.");
    try reflexivity.
  intros i' j' x' y' [Hlt | [_ Hlt]]; lia.
Defined.

(** [1/x] on a grid that contains [x = 0]: nothing is thrown, and the row
    of the surface (of the contour) for [x = 0] holds [Infinity]. *)
Lemma division_by_zero_counterexample :
  exists d3 d2,
    MiniMath.eval (MiniMath.Div (MiniMath.Const 1%float) MiniMath.SymX)
      0%float 0%float = Normal infinity /\
    generate3DPlotData MiniMath.lib MiniMath.host MiniMath.initialState
      "1/x" 1%float 2%float = Normal d3 /\
    generate2DPlotData MiniMath.lib MiniMath.initialState
      "1/x" 1%float 2%float = Normal d2 /\
    nth_error grid3d 20 = Some 0%float /\
    nth_error grid2d 10 = Some 0%float /\
    nth_error (Surface.z (Plot3d.surface d3)) 20 = Some (repeat infinity 40) /\
    nth_error (Contour.z (Plot2d.contour d2)) 10 = Some (repeat infinity 20) /\
    finite infinity = false.
Proof.
  destruct (generate3DPlotData MiniMath.lib MiniMath.host
              MiniMath.initialState "1/x" 1%float 2%float)
    as [d3|m] eqn:E3; [|vm_compute in E3; discriminate E3].
  destruct (generate2DPlotData MiniMath.lib MiniMath.initialState "1/x"
              1%float 2%float)
    as [d2|m] eqn:E2; [|vm_compute in E2; discriminate E2].
  exists d3, d2. vm_compute in E3. injection E3 as <-.
  vm_compute in E2. injection E2 as <-.
  repeat split; vm_compute; reflexivity.
Qed.

Lemma validation_witness :
  validateExpression MiniMath.lib "x^2 + y^2"
  = Valid (MiniMath.Add (MiniMath.Pow MiniMath.SymX 2)
             (MiniMath.Pow MiniMath.SymY 2)).
Proof.
  apply (proj2 (validation_checks_one_point MiniMath.lib "x^2 + y^2" _)).
  split; [reflexivity|]. exists 2%float. vm_compute. reflexivity.
Defined.

(** [nthRoot(x)] is accepted by validation (its value at [(1, 1)] is [1]),
    yet its evaluation throws at the first grid point, [(-5, -5)], and with
    it the generator. *)
Lemma accepted_expression_counterexample :
  validateExpression MiniMath.lib "nthRoot(x)"
  = Valid (MiniMath.NthRoot MiniMath.SymX) /\
  nth_error grid3d 0 = Some (-5)%float /\
  evaluate MiniMath.lib (MiniMath.NthRoot MiniMath.SymX) (-5)%float (-5)%float
  = Throw "Root must be odd when a is negative." /\
  generate3DPlotData MiniMath.lib MiniMath.host MiniMath.initialState
    "nthRoot(x)" 1%float 2%float
  = Throw "Error generating 3D plot: Root must be odd when a is negative.".
Proof. repeat split; vm_compute; reflexivity. Qed.


Lemma gradient_segment_witness :
  exists d,
    generate3DPlotData MiniMath.lib MiniMath.host MiniMath.initialState
      "x^2 + y^2" 1%float 2%float = Normal d /\
    Gradient.mode (Plot3d.gradient d) = "lines" /\
    length (Gradient.x (Plot3d.gradient d)) = 2%nat /\
    length (Gradient.z (Plot3d.gradient d)) = 2%nat.
Proof.
  destruct (generate3DPlotData MiniMath.lib MiniMath.host
              MiniMath.initialState "x^2 + y^2" 1%float 2%float)
    as [d|m] eqn:E.
  - exists d. split; [reflexivity|].
    destruct (gradient_segment MiniMath.lib MiniMath.host
                MiniMath.initialState "x^2 + y^2" 1%float 2%float d E)
      as (f & fx & fy & f0 & fx0 & fy0 & _ & _ & _ & _ & _ & _ & Hx & _ & Hz
          & Hm).
    rewrite Hx, Hz, Hm. repeat split.
  - vm_compute in E. discriminate E.
Defined.

Lemma point_marker_witness :
  exists d,
    generate3DPlotData MiniMath.lib MiniMath.host MiniMath.initialState
      "x^2 + y^2" 1%float 2%float = Normal d /\
    Point.visible (Plot3d.point d) = true.
Proof.
  destruct (generate3DPlotData MiniMath.lib MiniMath.host
              MiniMath.initialState "x^2 + y^2" 1%float 2%float)
    as [d|m] eqn:E.
  - exists d. split; [reflexivity|].
    exact (proj1 (point_marker_always_visible MiniMath.lib MiniMath.host
                    MiniMath.initialState "x^2 + y^2" 1%float 2%float d
                    (MiniMath.page "x^2 + y^2" 1%float 2%float) E)).
  - vm_compute in E. discriminate E.
Defined.
